(** * The secure task-trigger protocol of nuxt-scheduled-tasks-example

    A shallow embedding of the three pieces of TypeScript the repository
    wires together:

    - [Record_ts.run], the in-process Nitro task [example:record]
      (server/tasks/example/record.ts, lines 1-13);
    - [Record_ts.example_task_post], the secured trigger endpoint
      (server/api/tasks/example-task.post.ts, carried in the same file,
      lines 15-47);
    - [Netlify.example_task], the scheduled Netlify function
      (netlify/functions/example-task.mts), and
      [Netlify.example_task_checked], its revision that inspects the
      response's [success] flag (the version the README prints).

    JavaScript values are a small universe [JsValue]; a function that can
    throw and has effects is a state-and-exception computation [M] over a
    [World] holding the ordered trace of its observable effects and the
    environment's clock. *)

From stdpp Require Import base option list strings gmap pretty.

Set Warnings "-register-all".

(** ** JavaScript values *)

Module Js.

(** The values this program touches.  Numbers are the integers: every
    number the program computes with is a [Date.now()] reading, and a
    number arriving in a JSON body is only tested for truthiness or
    compared with [!==] against a value of another type, where a fraction
    behaves as a non-zero integer does.  [JError name message cause] is an
    [Error] instance ([new Error(message, { cause })]); [JH3Error] is what
    h3's [createError] builds from [{ statusCode, statusMessage }]. *)
Inductive JsValue : Type :=
  | JUndefined
  | JNull
  | JBool (b : bool)
  | JNum (n : Z)
  | JStr (s : string)
  | JArr (items : list JsValue)
  | JObj (props : gmap string JsValue)
  | JError (name message : string) (cause : JsValue)
  | JH3Error (statusCode : Z) (statusMessage : string).

(** A completion record: a JavaScript evaluation either yields a value or
    throws one. *)
Inductive Completion (A : Type) : Type :=
  | Normal (a : A)
  | Throw (e : JsValue).
Arguments Normal {A} a.
Arguments Throw {A} e.

(** [ToBoolean]: what [!x] and [if (x)] look at. *)
Definition truthy (v : JsValue) : bool :=
  match v with
  | JUndefined | JNull => false
  | JBool b => b
  | JNum n => negb (n =? 0)%Z
  | JStr s => negb (String.eqb s "")
  | JArr _ | JObj _ | JError _ _ _ | JH3Error _ _ => true
  end.

(** [a === b].  Primitives compare by type and value.  Objects compare by
    identity; the two operands of the one comparison in this program come
    from different allocations (the parsed request body and the runtime
    configuration), so two objects are never identical there. *)
Definition strict_eq (a b : JsValue) : bool :=
  match a, b with
  | JUndefined, JUndefined => true
  | JNull, JNull => true
  | JBool x, JBool y => Bool.eqb x y
  | JNum x, JNum y => (x =? y)%Z
  | JStr x, JStr y => String.eqb x y
  | _, _ => false
  end.

Definition TypeError (message : string) : JsValue :=
  JError "TypeError" message JUndefined.

(** [v.k] for a property name [k] that no built-in prototype defines (the
    program reads [secret] and [success]).  Reading a property of
    [undefined] or [null] throws a [TypeError]; the text is V8's. *)
Definition get_prop (v : JsValue) (k : string) : Completion JsValue :=
  match v with
  | JUndefined =>
      Throw (TypeError ("Cannot read properties of undefined (reading '" +:+ k +:+ "')"))
  | JNull =>
      Throw (TypeError ("Cannot read properties of null (reading '" +:+ k +:+ "')"))
  | JObj props => Normal (default JUndefined (props !! k))
  | _ => Normal JUndefined
  end.

(** [const { k } = v]: the same lookup, with the destructuring error. *)
Definition destructure (v : JsValue) (k : string) : Completion JsValue :=
  match v with
  | JUndefined =>
      Throw (TypeError ("Cannot destructure property '" +:+ k +:+
                        "' of '(intermediate value)' as it is undefined."))
  | JNull =>
      Throw (TypeError ("Cannot destructure property '" +:+ k +:+
                        "' of '(intermediate value)' as it is null."))
  | JObj props => Normal (default JUndefined (props !! k))
  | _ => Normal JUndefined
  end.

(** [String(n)] on an integer: its decimal digits, with a leading minus
    sign below zero.  (JavaScript switches to exponent notation from
    1e21 on; a [Date.now()] reading stays below 8.64e15.) *)
Definition String_ (n : Z) : string := pretty n.

(** An environment variable inside a template literal: [undefined]
    prints as the word. *)
Definition interpolate (o : option string) : string := default "undefined" o.

(** An environment variable as a value. *)
Definition env_value (o : option string) : JsValue :=
  match o with Some s => JStr s | None => JUndefined end.

End Js.
Export Js.

(** ** Effects *)

Module Effects.

(** What the outside can observe of a run, in order. *)
Inductive Event : Type :=
  | ConsoleLog (args : list JsValue)
  | ConsoleError (args : list JsValue)
  (** [useStorage(base).set(key, value)], not awaited *)
  | StorageSet (base : string) (key value : JsValue)
  (** [await useStorage(base).setItem(key, value)] *)
  | StorageSetItem (base : string) (key value : JsValue)
  (** [$fetch(url, options)] *)
  | Fetch (url : string) (options : JsValue).

(** [clock i] is what the [i]-th call of [Date.now()] returns; [reads]
    counts the calls made so far. *)
Record World : Type := mkWorld {
  trace : list Event;
  clock : nat -> Z;
  reads : nat
}.

Definition M (A : Type) : Type := World -> Completion A * World.

Definition ret {A} (a : A) : M A := fun w => (Normal a, w).

Definition throw {A} (e : JsValue) : M A := fun w => (Throw e, w).

Definition bind {A B} (m : M A) (k : A -> M B) : M B :=
  fun w =>
    match m w with
    | (Normal a, w') => k a w'
    | (Throw e, w') => (Throw e, w')
    end.

(** [try { body } catch (error) { handler }] *)
Definition try_catch {A} (body : M A) (handler : JsValue -> M A) : M A :=
  fun w =>
    match body w with
    | (Normal a, w') => (Normal a, w')
    | (Throw e, w') => handler e w'
    end.

(** A pure evaluation that may throw, run inside [M]. *)
Definition lift {A} (c : Completion A) : M A := fun w => (c, w).

Definition emit (ev : Event) : M unit :=
  fun w => (Normal tt, mkWorld (trace w ++ [ev]) (clock w) (reads w)).

Definition Date_now : M Z :=
  fun w => (Normal (clock w (reads w)), mkWorld (trace w) (clock w) (S (reads w))).

Definition console_log (args : list JsValue) : M unit := emit (ConsoleLog args).
Definition console_error (args : list JsValue) : M unit := emit (ConsoleError args).

End Effects.
Export Effects.

Declare Scope js_scope.
Delimit Scope js_scope with js.
Notation "'let*' x ':=' m 'in' k" := (bind m (fun x => k))
  (at level 10, x name, m at level 100, k at level 200) : js_scope.
Notation "m ';;' k" := (bind m (fun _ => k))
  (at level 100, k at level 200, right associativity) : js_scope.
Open Scope js_scope.

(** ** server/tasks/example/record.ts *)

Module Record_ts.

(** [useRuntimeConfig()]: the process-wide configuration.  nuxt.config.ts
    fills [taskSecret] from [process.env.TASK_SECRET], so it is a string
    or [undefined] (the README's variant starts it at [null]). *)
Record RuntimeConfig : Type := mkConfig { taskSecret : JsValue }.

(** The request as the handler sees it: [body] is how
    [await readBody(event)] ends.  It resolves with the parsed body
    ([undefined] when the request carries none), or rejects with the
    error h3 throws for a body it cannot parse. *)
Record H3Event : Type := mkEvent { body : Completion JsValue }.

Definition readBody (event : H3Event) : M JsValue := lift (body event).

(** [createError({ statusCode, statusMessage })] *)
Definition createError (statusCode : Z) (statusMessage : string) : JsValue :=
  JH3Error statusCode statusMessage.

(** [useStorage(base)]: the handle of the store mounted under [base]. *)
Definition useStorage (base : string) : string := base.

Definition storage_set (storage : string) (key value : JsValue) : M unit :=
  emit (StorageSet storage key value).

Definition storage_setItem (storage : string) (key value : JsValue) : M unit :=
  emit (StorageSetItem storage key value).

(** Lines 6-12: the [run] of [defineTask] for [example:record]. *)
Definition run (payload context : JsValue) : M JsValue :=
  let* now := Date_now in
  console_log [JStr "Running example record task: "; JNum now];;
  let storage := useStorage "example:record" in
  storage_set storage (JNum now) (JNum now);;
  ret (JObj {[ "result" := JStr "Success" ]}).

(** Lines 15-47: the handler of [POST /api/tasks/example-task]. *)
Definition example_task_post (config : RuntimeConfig) (event : H3Event) : M JsValue :=
  let* body := readBody event in
  let secretKey := taskSecret config in
  if negb (truthy secretKey) then
    throw (createError 500 "Secret must be set")
  else
  let* secret := lift (get_prop body "secret") in
  if negb (strict_eq secret secretKey) then
    throw (createError 401 "Unauthorized")
  else
  let* now := Date_now in
  console_log [JStr "Running example record task: "; JNum now];;
  let storage := useStorage "example:record" in
  storage_setItem storage (JStr (String_ now)) (JNum now);;
  ret (JObj {[ "success" := JBool true;
               "timestamp" := JNum now;
               "message" := JStr "Task completed successfully" ]}).

End Record_ts.
Export Record_ts.

(** ** netlify/functions/example-task.mts *)

Module Netlify.

(** [process.env] of the scheduled function. *)
Record ProcessEnv : Type := mkEnv {
  URL : option string;
  NUXT_TASK_SECRET : option string
}.

(** The platform's request: [json_payload] is how [await req.json()]
    ends.  It resolves with the parsed payload, [{ next_run }] on a
    scheduled tick, or rejects with the [SyntaxError] of a payload that
    is not JSON. *)
Record Request : Type := mkRequest { json_payload : Completion JsValue }.

Definition req_json (req : Request) : M JsValue := lift (json_payload req).

(** ofetch's [$fetch], an import of the module: how a call ends is the
    network's and the server's doing.  It resolves with the parsed body of
    a 2xx response and rejects with a [FetchError] on any other status and
    on a transport failure. *)
Definition Fetcher : Type := string -> JsValue -> Completion JsValue.

Definition fetch_ (fetch : Fetcher) (url : string) (options : JsValue) : M JsValue :=
  emit (Fetch url options);; lift (fetch url options).

Definition endpoint_url (env : ProcessEnv) : string :=
  interpolate (URL env) +:+ "/api/tasks/example-task".

Definition fetch_options (env : ProcessEnv) : JsValue :=
  JObj {[ "method" := JStr "POST";
          "body" := JObj {[ "secret" := env_value (NUXT_TASK_SECRET env) ]} ]}.

(** [new Error(message, { cause })] *)
Definition new_Error (message : string) (cause : JsValue) : JsValue :=
  JError "Error" message cause.

(** The default export of netlify/functions/example-task.mts. *)
Definition example_task (fetch : Fetcher) (env : ProcessEnv) (req : Request) : M unit :=
  let* payload := req_json req in
  let* next_run := lift (destructure payload "next_run") in
  console_log [JStr "Scheduled function triggered. Next run:"; next_run];;
  try_catch
    (let* response := fetch_ fetch (endpoint_url env) (fetch_options env) in
     console_log [JStr "Task completed:"; response])
    (fun error =>
       console_error [JStr "Task failed:"; error]).

(** The revision of the same function that inspects the response (the
    second source text of the function, which the README reproduces). *)
Definition example_task_checked (fetch : Fetcher) (env : ProcessEnv) (req : Request) : M unit :=
  let* payload := req_json req in
  let* next_run := lift (destructure payload "next_run") in
  console_log [JStr "Scheduled function triggered. Next run:"; next_run];;
  try_catch
    (let* response := fetch_ fetch (endpoint_url env) (fetch_options env) in
     let* success := lift (get_prop response "success") in
     (if negb (truthy success) then
        throw (new_Error "Task failed" response)
      else ret tt);;
     console_log [JStr "Task completed:"; response])
    (fun error =>
       console_error [JStr "Task failed:"; JObj {[ "cause" := error ]}]).

End Netlify.
Export Netlify.

(** ** Vocabulary of the specification *)

Module Spec.

(** The events a run added to the trace. *)
Definition new_events (w w' : World) : list Event :=
  drop (length (trace w)) (trace w').

Definition is_storage_write (ev : Event) : bool :=
  match ev with
  | StorageSet _ _ _ | StorageSetItem _ _ _ => true
  | _ => false
  end.

Definition is_console_log (ev : Event) : bool :=
  match ev with ConsoleLog _ => true | _ => false end.

(** The task's work: the key-value write and the execution log line. *)
Definition is_task_work (ev : Event) : bool :=
  is_storage_write ev || is_console_log ev.

(** The Shared Secret is configured: present and not empty. *)
Definition configured (config : RuntimeConfig) : bool :=
  truthy (taskSecret config).

(** The secret a request carries: the [secret] member of its body, when
    the body has members to read. *)
Definition request_secret (event : H3Event) : option JsValue :=
  match body event with
  | Normal parsed =>
      match get_prop parsed "secret" with
      | Normal v => Some v
      | Throw _ => None
      end
  | Throw _ => None
  end.

(** The [next_run] a tick announces: the member of that name of its
    payload, when the payload can be read and destructured. *)
Definition tick_next_run (req : Request) : Completion JsValue :=
  match json_payload req with
  | Normal payload => destructure payload "next_run"
  | Throw e => Throw e
  end.

(** The request's secret equals the Shared Secret exactly. *)
Definition secret_matches (config : RuntimeConfig) (event : H3Event) : bool :=
  match request_secret event with
  | Some v => strict_eq v (taskSecret config)
  | None => false
  end.

(** A Task Result: an object with a boolean [success], a number
    [timestamp] and a string [message]. *)
Definition is_task_result (v : JsValue) : bool :=
  match v with
  | JObj props =>
      match props !! "success", props !! "timestamp", props !! "message" with
      | Some (JBool _), Some (JNum _), Some (JStr _) => true
      | _, _, _ => false
      end
  | _ => false
  end.

(** Two requests served one after the other by the same process. *)
Definition invoke_twice (config : RuntimeConfig) (first second : H3Event)
    : M (JsValue * JsValue) :=
  let* r1 := example_task_post config first in
  let* r2 := example_task_post config second in
  ret (r1, r2).

(** The Task Handler's contract read as caller-independent: started in
    the same world, the task's [run] and the endpoint (given valid
    credentials) end with the same value, and that value is Task
    Result-shaped unless [run] throws. *)
Definition caller_independent (payload context : JsValue)
    (config : RuntimeConfig) (event : H3Event) (w : World) : Prop :=
  (run payload context w).1 = (example_task_post config event w).1
  /\ match (run payload context w).1 with
     | Normal v => is_task_result v = true
     | Throw _ => True
     end.

(** The unset-secret rule read over every request: with the Shared
    Secret empty or missing the endpoint ends in the 500 error and the
    world is untouched. *)
Definition unset_secret_is_500
    (config : RuntimeConfig) (event : H3Event) (w : World) : Prop :=
  configured config = false ->
  example_task_post config event w =
    (Throw (JH3Error 500 "Secret must be set"), w).

(** The wrong-secret rule read over every request: with the Shared
    Secret configured, a request whose secret does not equal it ends in
    the 401 error and the world is untouched. *)
Definition wrong_secret_is_401
    (config : RuntimeConfig) (event : H3Event) (w : World) : Prop :=
  configured config = true ->
  secret_matches config event = false ->
  example_task_post config event w =
    (Throw (JH3Error 401 "Unauthorized"), w).

(** What a request's fate may depend on: whether its body could be
    read (and the error of reading it if not), whether the Shared Secret
    is configured, whether the body has members to read at all (a body
    that is [undefined] or [null] carries no secret), and whether the
    secret it carries matches. *)
Inductive Outcome : Type :=
  | BodyUnreadable (error : JsValue)
  | SecretUnset
  | BodyUndefined
  | BodyNull
  | SecretRejected
  | SecretAccepted.

Definition outcome (config : RuntimeConfig) (event : H3Event) : Outcome :=
  match body event with
  | Throw error => BodyUnreadable error
  | Normal parsed =>
      if negb (configured config) then SecretUnset
      else match parsed with
           | JUndefined => BodyUndefined
           | JNull => BodyNull
           | _ => if secret_matches config event then SecretAccepted
                  else SecretRejected
           end
  end.

(** The text a value shows when it is printed or serialised: its strings,
    its numbers in decimal, its booleans, its property names, and the
    same for everything inside it. *)
Inductive text_of : JsValue -> string -> Prop :=
  | text_bool b : text_of (JBool b) (if b then "true" else "false")
  | text_num n : text_of (JNum n) (String_ n)
  | text_str s : text_of (JStr s) s
  | text_item items v s : v ∈ items -> text_of v s -> text_of (JArr items) s
  | text_key props k v : props !! k = Some v -> text_of (JObj props) k
  | text_prop props k v s :
      props !! k = Some v -> text_of v s -> text_of (JObj props) s
  | text_error_name name message cause : text_of (JError name message cause) name
  | text_error_message name message cause :
      text_of (JError name message cause) message
  | text_error_cause name message cause s :
      text_of cause s -> text_of (JError name message cause) s
  | text_h3_status code message : text_of (JH3Error code message) (String_ code)
  | text_h3_message code message : text_of (JH3Error code message) message.

Definition logged (ev : Event) : list JsValue :=
  match ev with
  | ConsoleLog args | ConsoleError args => args
  | _ => []
  end.

(** What the endpoint shows of a run started in [w]: the arguments of
    the log lines it emitted, and the response or error it ended with. *)
Definition shown (w : World) (run : Completion JsValue * World) : list JsValue :=
  flat_map logged (new_events w run.2)
  ++ [match run.1 with Normal v => v | Throw e => e end].

(** Every text the handler can put in a log line, a response or an
    error: the literals of its source, the error text of the one
    property read, and the clock reading [now]. *)
Definition endpoint_texts (now : Z) : list string :=
  [ "Secret must be set"; "500"; "Unauthorized"; "401";
    "TypeError";
    "Cannot read properties of undefined (reading 'secret')";
    "Cannot read properties of null (reading 'secret')";
    "Running example record task: "; String_ now;
    "success"; "true"; "timestamp"; "message";
    "Task completed successfully" ].

End Spec.
Export Spec.

(** ** Sample inputs *)

Module Samples.

(** A clock that starts at 1700000000000 ms and advances by one
    millisecond per reading; nothing has happened yet. *)
Definition w0 : World :=
  mkWorld [] (fun i => 1700000000000 + Z.of_nat i)%Z 0.

Definition config_abc123 : RuntimeConfig := mkConfig (JStr "abc123").
Definition config_unset : RuntimeConfig := mkConfig JUndefined.
Definition config_empty : RuntimeConfig := mkConfig (JStr "").

Definition request_with (secret : string) : H3Event :=
  mkEvent (Normal (JObj {[ "secret" := JStr secret ]})).
Definition request_without_body : H3Event := mkEvent (Normal JUndefined).

(** A request whose body is not JSON: h3 rejects it with its 400 error. *)
Definition unparsable_request : H3Event :=
  mkEvent (Throw (JH3Error 400 "Bad Request")).

Definition process_env : ProcessEnv :=
  mkEnv (Some "https://example.netlify.app") (Some "abc123").

Definition tick : Request :=
  mkRequest (Normal (JObj {[ "next_run" := JStr "2026-11-02T13:00:00.000Z" ]})).

(** A server that answers every call with 200 and the body [v]. *)
Definition responds (v : JsValue) : Fetcher := fun _ _ => Normal v.

(** A call that fails: the server answers with an error status, or
    cannot be reached. *)
Definition rejects (e : JsValue) : Fetcher := fun _ _ => Throw e.

(** The page a host serves with status 200 for a route it does not know. *)
Definition fallback_page : JsValue := JStr "<!DOCTYPE html>".

Definition unauthorized : JsValue :=
  JError "FetchError" "401 Unauthorized" JUndefined.
Definition connection_refused : JsValue :=
  JError "FetchError" "fetch failed" (JError "Error" "connect ECONNREFUSED" JUndefined).

End Samples.
Export Samples.

(** ** The processes around the handlers *)

Module Process.

(** The request passes the endpoint's secret check. *)
Definition authorised (config : RuntimeConfig) (event : H3Event) : bool :=
  configured config && secret_matches config event.

(** The server answering a queue of requests, one after the other: each
    request is handed to the handler, and an error the handler throws
    ends that exchange only. *)
Fixpoint serve (config : RuntimeConfig) (requests : list H3Event) (w : World)
    : list (Completion JsValue) * World :=
  match requests with
  | [] => ([], w)
  | event :: rest =>
      let (r, w1) := example_task_post config event w in
      let (rs, w2) := serve config rest w1 in
      (r :: rs, w2)
  end.

(** The scheduler firing the [example:record] task [n] times
    (nuxt.config.ts binds it to a cron expression): how each firing
    ended, and the world after the last. *)
Fixpoint run_times (payload context : JsValue) (n : nat) (w : World)
    : list (Completion JsValue) * World :=
  match n with
  | O => ([], w)
  | S n' =>
      let (r, w1) := run payload context w in
      let (rs, w2) := run_times payload context n' w1 in
      (r :: rs, w2)
  end.

(** The next [n] readings of the clock. *)
Definition readings (w : World) (n : nat) : list Z :=
  (fun i => clock w (reads w + i)) <$> seq 0 n.

(** What the endpoint's task logic adds to the trace at reading [t]. *)
Definition endpoint_work (t : Z) : list Event :=
  [ConsoleLog [JStr "Running example record task: "; JNum t];
   StorageSetItem "example:record" (JStr (String_ t)) (JNum t)].

(** What the task's [run] adds to the trace at reading [t]. *)
Definition run_work (t : Z) : list Event :=
  [ConsoleLog [JStr "Running example record task: "; JNum t];
   StorageSet "example:record" (JNum t) (JNum t)].

(** The keys and the values of the storage writes among some events. *)
Definition written (evs : list Event) : list (JsValue * JsValue) :=
  flat_map (fun ev => match ev with
                      | StorageSet _ k v | StorageSetItem _ k v => [(k, v)]
                      | _ => []
                      end) evs.

Definition is_fetch (ev : Event) : bool :=
  match ev with Fetch _ _ => true | _ => false end.

End Process.
Export Process.

(** ** Proof steps *)

(** Membership of a literal in [endpoint_texts]. *)
Ltac in_texts :=
  unfold endpoint_texts;
  repeat first [apply list_elem_of_here | apply list_elem_of_further].

(** Case analysis on every [===] left in the goal. *)
Ltac split_strict_eq :=
  repeat match goal with
         | |- context [strict_eq ?a ?b] => destruct (strict_eq a b)
         end.

(** ** The endpoint, case by case *)

(** The handler has five ways to end, decided by the reading of the
    body, two tests and one property read; only the last touches the
    world. *)
Lemma example_task_post_cases (config : RuntimeConfig) (event : H3Event) (w : World) :
  example_task_post config event w =
    match body event with
    | Throw e => (Throw e, w)
    | Normal parsed =>
        if negb (truthy (taskSecret config)) then
          (Throw (JH3Error 500 "Secret must be set"), w)
        else
          match get_prop parsed "secret" with
          | Throw e => (Throw e, w)
          | Normal secret =>
              if negb (strict_eq secret (taskSecret config)) then
                (Throw (JH3Error 401 "Unauthorized"), w)
              else
                let now := clock w (reads w) in
                (Normal (JObj {[ "success" := JBool true;
                                 "timestamp" := JNum now;
                                 "message" := JStr "Task completed successfully" ]}),
                 mkWorld (trace w ++
                            [ConsoleLog [JStr "Running example record task: "; JNum now];
                             StorageSetItem "example:record" (JStr (String_ now))
                               (JNum now)])
                         (clock w) (S (reads w)))
          end
    end.
Proof.
  unfold example_task_post, readBody, bind, ret, lift, throw, createError.
  destruct (body event) as [parsed|e]; [|reflexivity].
  destruct (negb (truthy (taskSecret config))); [reflexivity|].
  destruct (get_prop parsed "secret") as [secret|e]; [|reflexivity].
  destruct (negb (strict_eq secret (taskSecret config))); [reflexivity|].
  unfold Date_now, console_log, storage_setItem, useStorage, emit; cbn [trace clock reads].
  by rewrite <- app_assoc.
Qed.

Lemma new_events_app (w : World) (evs : list Event) (c : nat -> Z) (n : nat) :
  new_events w (mkWorld (trace w ++ evs) c n) = evs.
Proof. unfold new_events; cbn [trace]. apply drop_app_length. Qed.

Lemma new_events_same (w : World) : new_events w w = [].
Proof. unfold new_events. apply drop_all. Qed.

(** The accepted case in full. *)
Lemma example_task_post_accepted (config : RuntimeConfig) (event : H3Event) (w : World) :
  configured config = true ->
  secret_matches config event = true ->
  example_task_post config event w =
    (Normal (JObj {[ "success" := JBool true;
                     "timestamp" := JNum (clock w (reads w));
                     "message" := JStr "Task completed successfully" ]}),
     mkWorld (trace w ++
                [ConsoleLog [JStr "Running example record task: ";
                             JNum (clock w (reads w))];
                 StorageSetItem "example:record"
                   (JStr (String_ (clock w (reads w)))) (JNum (clock w (reads w)))])
             (clock w) (S (reads w))).
Proof.
  unfold configured, secret_matches, request_secret; intros Hset Hmatch.
  rewrite example_task_post_cases.
  destruct (body event) as [parsed|e]; [|discriminate].
  rewrite Hset; cbn [negb].
  destruct (get_prop parsed "secret") as [v|e]; [|discriminate].
  by rewrite Hmatch.
Qed.

(** Responses with different timestamps are different responses. *)
Lemma task_result_timestamp_inj (t1 t2 : Z) :
  JObj {[ "success" := JBool true; "timestamp" := JNum t1;
          "message" := JStr "Task completed successfully" ]} =
  JObj {[ "success" := JBool true; "timestamp" := JNum t2;
          "message" := JStr "Task completed successfully" ]} ->
  t1 = t2.
Proof.
  intros Heq.
  apply (f_equal (fun v => get_prop v "timestamp")) in Heq.
  change (Normal (JNum t1) = Normal (JNum t2)) in Heq.
  congruence.
Qed.

(** ** The secret check *)

(** C1.  The endpoint does the task's work (the execution log line and
    the key-value write) only when the Shared Secret is configured and
    the request's secret equals it exactly; on every other request it
    ends by throwing an error and leaves the world as it found it. *)
Theorem endpoint_work_requires_matching_secret
    (config : RuntimeConfig) (event : H3Event) (w : World)
    (r : Completion JsValue) (w' : World) :
  example_task_post config event w = (r, w') ->
  (Exists (fun ev => is_task_work ev = true) (new_events w w') ->
     configured config = true /\ secret_matches config event = true)
  /\ (configured config && secret_matches config event = false ->
     (exists e, r = Throw e) /\ w' = w).
Proof.
  rewrite example_task_post_cases.
  unfold configured, secret_matches, request_secret.
  destruct (body event) as [parsed|e].
  2: { intros [= <- <-]. rewrite new_events_same. split.
       - intros H; inversion H.
       - eauto. }
  destruct (truthy (taskSecret config)); cbn [negb andb].
  2: { intros [= <- <-]. rewrite new_events_same. split.
       - intros H; inversion H.
       - eauto. }
  destruct (get_prop parsed "secret") as [secret|e].
  2: { intros [= <- <-]. rewrite new_events_same. split.
       - intros H; inversion H.
       - eauto. }
  destruct (strict_eq secret (taskSecret config)); cbn [negb].
  - intros [= <- <-]. split; [done|discriminate].
  - intros [= <- <-]. rewrite new_events_same. split.
    + intros H; inversion H.
    + eauto.
Qed.

Lemma endpoint_work_requires_matching_secret_witness :
  let run := example_task_post config_abc123 (request_with "wrong") w0 in
  (exists e, run.1 = Throw e) /\ run.2 = w0.
Proof.
  intros run.
  destruct (endpoint_work_requires_matching_secret
              config_abc123 (request_with "wrong") w0 run.1 run.2)
    as [_ Hrejected]; [reflexivity|].
  apply Hrejected; reflexivity.
Defined.

(** C2, as stated, fails: the handler reads the body before it looks
    at the secret, so with the secret unset a request whose body cannot
    be parsed ends in the error of reading it (h3's 400), not in the
    500 error. *)
Lemma unparsable_body_is_not_500 :
  ~ unset_secret_is_500 config_unset unparsable_request w0.
Proof. intros Hrule. discriminate (Hrule eq_refl). Qed.

(** C2, amended.  With the Shared Secret empty or missing, no request
    has the task's work done: every request ends in an error with the
    world unchanged, and whenever the request's body could be read that
    error is the 500 error "Secret must be set". *)
Theorem endpoint_unset_secret_is_500
    (config : RuntimeConfig) (event : H3Event) (w : World) :
  configured config = false ->
  (exists e, example_task_post config event w = (Throw e, w))
  /\ (forall parsed, body event = Normal parsed ->
      example_task_post config event w =
        (Throw (JH3Error 500 "Secret must be set"), w)).
Proof.
  unfold configured; intros Hunset.
  rewrite example_task_post_cases.
  destruct (body event) as [parsed|e].
  - rewrite Hunset; cbn [negb]. split; [eauto|reflexivity].
  - split; [eauto|discriminate].
Qed.

Lemma endpoint_unset_secret_is_500_witness :
  example_task_post config_unset (request_with "abc123") w0 =
    (Throw (JH3Error 500 "Secret must be set"), w0)
  /\ example_task_post config_empty request_without_body w0 =
    (Throw (JH3Error 500 "Secret must be set"), w0)
  /\ (exists e, example_task_post (mkConfig JNull) unparsable_request w0 = (Throw e, w0)).
Proof.
  split; [|split].
  - exact (proj2 (endpoint_unset_secret_is_500
                    config_unset (request_with "abc123") w0 eq_refl) _ eq_refl).
  - exact (proj2 (endpoint_unset_secret_is_500
                    config_empty request_without_body w0 eq_refl) _ eq_refl).
  - exact (proj1 (endpoint_unset_secret_is_500
                    (mkConfig JNull) unparsable_request w0 eq_refl)).
Defined.

(** C3, as stated, fails: with "abc123" configured, a request without a
    body, and a request whose body cannot be parsed, carry no matching
    secret, and yet neither ends in the 401 error. *)
Lemma request_without_body_is_not_401 :
  ~ wrong_secret_is_401 config_abc123 request_without_body w0
  /\ ~ wrong_secret_is_401 config_abc123 unparsable_request w0.
Proof. split; intros Hrule; discriminate (Hrule eq_refl eq_refl). Qed.

(** C3, amended.  With the Shared Secret configured, a request whose
    secret does not equal it never has the task's work done: it ends in
    an error with the world unchanged; and whenever its body could be
    read and has members to read (it is neither absent nor [null]),
    that error is the 401 error "Unauthorized". *)
Theorem endpoint_wrong_secret_is_401
    (config : RuntimeConfig) (event : H3Event) (w : World) :
  configured config = true ->
  secret_matches config event = false ->
  (exists e, example_task_post config event w = (Throw e, w))
  /\ (forall secret, request_secret event = Some secret ->
      example_task_post config event w =
        (Throw (JH3Error 401 "Unauthorized"), w)).
Proof.
  unfold configured, secret_matches, request_secret; intros Hset Hwrong.
  rewrite example_task_post_cases.
  destruct (body event) as [parsed|e]; [|split; [eauto|discriminate]].
  rewrite Hset; cbn [negb].
  destruct (get_prop parsed "secret") as [v|e]; [|split; [eauto|discriminate]].
  rewrite Hwrong; cbn [negb]. split; [eauto|reflexivity].
Qed.

Lemma endpoint_wrong_secret_is_401_witness :
  example_task_post config_abc123 (request_with "wrong") w0 =
    (Throw (JH3Error 401 "Unauthorized"), w0)
  /\ example_task_post config_abc123 (mkEvent (Normal (JObj ∅))) w0 =
    (Throw (JH3Error 401 "Unauthorized"), w0)
  /\ (exists e, example_task_post config_abc123 request_without_body w0 = (Throw e, w0)).
Proof.
  split; [|split].
  - exact (proj2 (endpoint_wrong_secret_is_401
                    config_abc123 (request_with "wrong") w0 eq_refl eq_refl)
                 (JStr "wrong") eq_refl).
  - exact (proj2 (endpoint_wrong_secret_is_401
                    config_abc123 (mkEvent (Normal (JObj ∅))) w0 eq_refl eq_refl)
                 JUndefined eq_refl).
  - exact (proj1 (endpoint_wrong_secret_is_401
                    config_abc123 request_without_body w0 eq_refl eq_refl)).
Defined.

(** C4.  With the Shared Secret configured, a request whose body secret
    equals it makes the endpoint do the task's work exactly once (one
    log line and one key-value write are added to the trace, the clock
    is read once) and return [{ success: true, timestamp, message }],
    where [timestamp] is the [Date.now()] reading of this request and
    [message] is the non-empty "Task completed successfully". *)
Theorem endpoint_matching_secret_runs_task_once
    (config : RuntimeConfig) (event : H3Event) (w : World) :
  configured config = true ->
  secret_matches config event = true ->
  let now := clock w (reads w) in
  exists w',
    example_task_post config event w =
      (Normal (JObj {[ "success" := JBool true;
                       "timestamp" := JNum now;
                       "message" := JStr "Task completed successfully" ]}), w')
    /\ new_events w w' =
         [ConsoleLog [JStr "Running example record task: "; JNum now];
          StorageSetItem "example:record" (JStr (String_ now)) (JNum now)]
    /\ length (filter (fun ev => is_storage_write ev = true) (new_events w w')) = 1
    /\ length (filter (fun ev => is_console_log ev = true) (new_events w w')) = 1
    /\ reads w' = S (reads w)
    /\ "Task completed successfully" <> "".
Proof.
  unfold configured, secret_matches, request_secret; intros Hset Hmatch; cbv zeta.
  rewrite example_task_post_cases.
  destruct (body event) as [parsed|e]; [|discriminate].
  rewrite Hset; cbn [negb].
  destruct (get_prop parsed "secret") as [v|e]; [|discriminate].
  rewrite Hmatch; cbn [negb].
  eexists; split; [reflexivity|].
  rewrite new_events_app. repeat split; discriminate.
Qed.

Lemma endpoint_matching_secret_runs_task_once_witness :
  example_task_post config_abc123 (request_with "abc123") w0 =
    (Normal (JObj {[ "success" := JBool true;
                     "timestamp" := JNum 1700000000000;
                     "message" := JStr "Task completed successfully" ]}),
     mkWorld [ConsoleLog [JStr "Running example record task: "; JNum 1700000000000];
              StorageSetItem "example:record" (JStr "1700000000000") (JNum 1700000000000)]
             (clock w0) 1).
Proof.
  destruct (endpoint_matching_secret_runs_task_once
              config_abc123 (request_with "abc123") w0)
    as (w' & Hrun & _); [reflexivity|reflexivity|].
  reflexivity.
Defined.

(** C10.  On a successful invocation the handler reads [Date.now()] once,
    and that one reading is the key of the key-value write in its string
    form, the value written, the timestamp logged and the [timestamp] of
    the response. *)
Theorem endpoint_uses_one_clock_reading
    (config : RuntimeConfig) (event : H3Event) (w : World)
    (response : JsValue) (w' : World) :
  example_task_post config event w = (Normal response, w') ->
  let now := clock w (reads w) in
  reads w' = S (reads w)
  /\ new_events w w' =
       [ConsoleLog [JStr "Running example record task: "; JNum now];
        StorageSetItem "example:record" (JStr (String_ now)) (JNum now)]
  /\ get_prop response "timestamp" = Normal (JNum now).
Proof.
  rewrite example_task_post_cases.
  destruct (body event) as [parsed|e]; [|discriminate].
  destruct (negb (truthy (taskSecret config))); [discriminate|].
  destruct (get_prop parsed "secret") as [secret|e]; [|discriminate].
  destruct (negb (strict_eq secret (taskSecret config))); [discriminate|].
  intros [= <- <-]; cbv zeta.
  rewrite new_events_app. by repeat split.
Qed.

Lemma endpoint_uses_one_clock_reading_witness :
  let run := example_task_post config_abc123 (request_with "abc123") w0 in
  reads run.2 = 1
  /\ new_events w0 run.2 =
       [ConsoleLog [JStr "Running example record task: "; JNum 1700000000000];
        StorageSetItem "example:record" (JStr "1700000000000") (JNum 1700000000000)]
  /\ get_prop (JObj {[ "success" := JBool true;
                       "timestamp" := JNum 1700000000000;
                       "message" := JStr "Task completed successfully" ]})
       "timestamp" = Normal (JNum 1700000000000).
Proof.
  intros run.
  apply (endpoint_uses_one_clock_reading
           config_abc123 (request_with "abc123") w0).
  reflexivity.
Defined.

(** ** Repeated invocations *)

(** C8.  The endpoint is not idempotent.  Two invocations with valid
    credentials both do the task's work: the trace gains two log lines
    and two key-value writes, and the world after both differs from the
    world after the first.  Each response carries the clock reading of
    its own invocation; when the two readings differ, so do the
    timestamps, the responses and the keys written. *)
Theorem endpoint_twice_runs_task_twice
    (config : RuntimeConfig) (first second : H3Event) (w : World) :
  configured config = true ->
  secret_matches config first = true ->
  secret_matches config second = true ->
  let t1 := clock w (reads w) in
  let t2 := clock w (S (reads w)) in
  let r1 := JObj {[ "success" := JBool true; "timestamp" := JNum t1;
                    "message" := JStr "Task completed successfully" ]} in
  let r2 := JObj {[ "success" := JBool true; "timestamp" := JNum t2;
                    "message" := JStr "Task completed successfully" ]} in
  exists w2,
    invoke_twice config first second w = (Normal (r1, r2), w2)
    /\ new_events w w2 =
         [ConsoleLog [JStr "Running example record task: "; JNum t1];
          StorageSetItem "example:record" (JStr (String_ t1)) (JNum t1);
          ConsoleLog [JStr "Running example record task: "; JNum t2];
          StorageSetItem "example:record" (JStr (String_ t2)) (JNum t2)]
    /\ length (filter (fun ev => is_storage_write ev = true) (new_events w w2)) = 2
    /\ w2 <> (example_task_post config first w).2
    /\ (t1 <> t2 -> r1 <> r2 /\ String_ t1 <> String_ t2).
Proof.
  intros Hset Hfirst Hsecond; cbv zeta.
  unfold invoke_twice, bind, ret.
  rewrite (example_task_post_accepted config first w Hset Hfirst).
  rewrite (example_task_post_accepted config second _ Hset Hsecond).
  cbn [trace clock reads].
  rewrite <- app_assoc; cbn [app].
  eexists; split; [reflexivity|].
  rewrite new_events_app. split; [reflexivity|]. split; [reflexivity|]. split.
  - intros Heq. apply (f_equal (fun x => length (trace x))) in Heq.
    cbn [trace snd] in Heq. rewrite !length_app in Heq. cbn [length] in Heq. lia.
  - intros Hclock. split; intros Heq; apply Hclock.
    + by apply task_result_timestamp_inj.
    + by apply (inj pretty).
Qed.

Lemma endpoint_twice_runs_task_twice_witness :
  exists w2,
    invoke_twice config_abc123 (request_with "abc123") (request_with "abc123") w0 =
      (Normal (JObj {[ "success" := JBool true; "timestamp" := JNum 1700000000000;
                       "message" := JStr "Task completed successfully" ]},
               JObj {[ "success" := JBool true; "timestamp" := JNum 1700000000001;
                       "message" := JStr "Task completed successfully" ]}), w2)
    /\ length (filter (fun ev => is_storage_write ev = true) (new_events w0 w2)) = 2.
Proof.
  destruct (endpoint_twice_runs_task_twice
              config_abc123 (request_with "abc123") (request_with "abc123") w0)
    as (w2 & Hrun & _ & Hwrites & _); [reflexivity..|].
  exists w2. split; [exact Hrun|exact Hwrites].
Defined.

(** ** What the endpoint reveals *)

Lemma shown_rejected (w : World) (e : JsValue) :
  shown w (Throw e, w) = [e].
Proof. unfold shown; cbn [fst snd]. by rewrite new_events_same. Qed.

Lemma shown_accepted (w : World) (evs : list Event) (c : nat -> Z) (n : nat) (v : JsValue) :
  shown w (Normal v, mkWorld (trace w ++ evs) c n) = flat_map logged evs ++ [v].
Proof. unfold shown; cbn [fst snd]. by rewrite new_events_app. Qed.

Lemma task_result_lookup (now : Z) (k : string) (v : JsValue) :
  ({[ "success" := JBool true; "timestamp" := JNum now;
      "message" := JStr "Task completed successfully" ]} : gmap string JsValue)
    !! k = Some v ->
  (k = "success" /\ v = JBool true)
  \/ (k = "timestamp" /\ v = JNum now)
  \/ (k = "message" /\ v = JStr "Task completed successfully").
Proof.
  rewrite !lookup_insert_Some, lookup_singleton_Some.
  intros [[<- <-]|[_ [[<- <-]|[_ [<- <-]]]]]; auto.
Qed.

(** Requests that fare the same way are served the same way. *)
Lemma endpoint_depends_on_outcome_only
    (config1 config2 : RuntimeConfig) (event1 event2 : H3Event) (w : World) :
  outcome config1 event1 = outcome config2 event2 ->
  example_task_post config1 event1 w = example_task_post config2 event2 w.
Proof.
  rewrite !example_task_post_cases.
  unfold outcome, configured, secret_matches, request_secret.
  destruct (body event1) as [parsed1|e1], (body event2) as [parsed2|e2].
  - destruct (truthy (taskSecret config1)), (truthy (taskSecret config2));
      cbn [negb].
    + destruct parsed1, parsed2; cbn [get_prop];
        split_strict_eq; cbn [negb]; try discriminate; reflexivity.
    + destruct parsed1; cbn [get_prop]; split_strict_eq; discriminate.
    + destruct parsed2; cbn [get_prop]; split_strict_eq; discriminate.
    + reflexivity.
  - destruct (truthy (taskSecret config1)); cbn [negb]; [|discriminate].
    destruct parsed1; cbn [get_prop]; split_strict_eq; discriminate.
  - destruct (truthy (taskSecret config2)); cbn [negb]; [|discriminate].
    destruct parsed2; cbn [get_prop]; split_strict_eq; discriminate.
  - by intros [= ->].
Qed.

(** Whatever the handler shows is spelled with its own texts, unless
    it is the error of reading the body, which the handler passes on
    as it is. *)
Lemma endpoint_texts_cover_shown
    (config : RuntimeConfig) (event : H3Event) (w : World) (v : JsValue) (s : string) :
  v ∈ shown w (example_task_post config event w) ->
  text_of v s ->
  s ∈ endpoint_texts (clock w (reads w)) \/ body event = Throw v.
Proof.
  rewrite example_task_post_cases.
  destruct (body event) as [parsed|e0].
  2: { rewrite shown_rejected, list_elem_of_singleton. intros -> _. by right. }
  intros Hshown Htext. left. revert Hshown Htext.
  destruct (negb (truthy (taskSecret config))).
  { rewrite shown_rejected, list_elem_of_singleton. intros -> Htext.
    inversion Htext; subst; in_texts. }
  destruct (get_prop parsed "secret") as [secret|e] eqn:Hread.
  2: { rewrite shown_rejected, list_elem_of_singleton. intros ->.
       destruct parsed; try discriminate;
         injection Hread as <-; intros Htext;
         inversion Htext as [ | | | | | | | |? ? ? ? Hcause| | ]; subst;
         try (inversion Hcause); in_texts. }
  destruct (negb (strict_eq secret (taskSecret config))).
  { rewrite shown_rejected, list_elem_of_singleton. intros -> Htext.
    inversion Htext; subst; in_texts. }
  cbv zeta. rewrite shown_accepted. cbn [flat_map logged app].
  rewrite !elem_of_cons, elem_of_nil.
  intros [->|[->|[->|[]]]] Htext.
  - inversion Htext; subst; in_texts.
  - inversion Htext; subst; in_texts.
  - inversion Htext as [ | | | |? ? ? Hk|? ? ? ? Hk Hv| | | | | ]; subst.
    + apply task_result_lookup in Hk.
      destruct Hk as [[-> _]|[[-> _]|[-> _]]]; in_texts.
    + apply task_result_lookup in Hk.
      destruct Hk as [[_ ->]|[[_ ->]|[_ ->]]];
        inversion Hv; subst; in_texts.
Qed.

(** C9.  The endpoint never shows a secret.  Two requests that fare the
    same way (same configured/readable/match outcome) in the same world
    produce the same log lines, the same storage calls and the same
    response or error, whatever the configured secret and the request's
    secret are; and every text in a log line, response or error comes
    from a fixed list made of the handler's literals, the error text of
    the property read and the clock reading, none of them taken from
    either secret.  (The one thing shown that the handler does not
    spell itself is the error of a body that could not be read, which
    it passes on untouched.) *)
Theorem endpoint_shows_no_secret (w : World) :
  (forall (config1 config2 : RuntimeConfig) (event1 event2 : H3Event),
     outcome config1 event1 = outcome config2 event2 ->
     example_task_post config1 event1 w = example_task_post config2 event2 w)
  /\ (forall (config : RuntimeConfig) (event : H3Event) (v : JsValue) (s : string),
       v ∈ shown w (example_task_post config event w) ->
       text_of v s ->
       s ∈ endpoint_texts (clock w (reads w)) \/ body event = Throw v).
Proof.
  split.
  - intros config1 config2 event1 event2.
    apply endpoint_depends_on_outcome_only.
  - intros config event v s. apply endpoint_texts_cover_shown.
Qed.

Lemma endpoint_shows_no_secret_witness :
  example_task_post config_abc123 (request_with "wrong") w0 =
    example_task_post (mkConfig (JStr "hunter2")) (request_with "abc123") w0
  /\ "Unauthorized" ∈ endpoint_texts 1700000000000.
Proof.
  destruct (endpoint_shows_no_secret w0) as [Hsame Htexts]. split.
  - apply Hsame. reflexivity.
  - destruct (Htexts config_abc123 (request_with "wrong")
                     (JH3Error 401 "Unauthorized") "Unauthorized")
      as [Hin|Hunread]; [| |exact Hin|discriminate Hunread].
    + rewrite example_task_post_cases. cbn. left.
    + constructor.
Defined.

(** ** The task and the endpoint side by side *)

(** [run] has no failing path of its own. *)
Lemma run_returns (payload context : JsValue) (w : World) :
  run payload context w =
    (Normal (JObj {[ "result" := JStr "Success" ]}),
     mkWorld (trace w ++
                [ConsoleLog [JStr "Running example record task: ";
                             JNum (clock w (reads w))];
                 StorageSet "example:record"
                   (JNum (clock w (reads w))) (JNum (clock w (reads w)))])
             (clock w) (S (reads w))).
Proof.
  unfold run, bind, ret, Date_now, console_log, storage_set, useStorage, emit.
  cbn [trace clock reads]. by rewrite <- app_assoc.
Qed.

(** C7, as stated, fails: with the secret "abc123" configured and sent,
    the task's [run] returns [{ result: "Success" }], which is neither
    the endpoint's response nor Task Result-shaped. *)
Lemma run_is_not_caller_independent :
  ~ caller_independent JUndefined JUndefined
      config_abc123 (request_with "abc123") w0.
Proof. intros [Hsame _]. discriminate Hsame. Qed.

Lemma run_result_is_not_task_result :
  (run JUndefined JUndefined w0).1 = Normal (JObj {[ "result" := JStr "Success" ]})
  /\ is_task_result (JObj {[ "result" := JStr "Success" ]}) = false.
Proof. split; reflexivity. Qed.

(** C7, amended.  The task's [run] and the endpoint's task logic do the
    same kind of work: each reads the clock once, logs the line
    "Running example record task: " with that reading, and issues one
    write of the reading to the [example:record] store ([run] through
    [set] with the number as key, the endpoint through [setItem] with
    its string form as key).  They return different values: the endpoint
    a Task Result-shaped object, [run] the object [{ result: "Success" }],
    which is not Task Result-shaped; [run] itself never throws. *)
Theorem run_and_endpoint_do_the_same_kind_of_work
    (payload context : JsValue) (config : RuntimeConfig) (event : H3Event) (w : World) :
  configured config = true ->
  secret_matches config event = true ->
  let now := clock w (reads w) in
  exists (response : JsValue) (w1 w2 : World),
    run payload context w = (Normal (JObj {[ "result" := JStr "Success" ]}), w1)
    /\ example_task_post config event w = (Normal response, w2)
    /\ new_events w w1 =
         [ConsoleLog [JStr "Running example record task: "; JNum now];
          StorageSet "example:record" (JNum now) (JNum now)]
    /\ new_events w w2 =
         [ConsoleLog [JStr "Running example record task: "; JNum now];
          StorageSetItem "example:record" (JStr (String_ now)) (JNum now)]
    /\ reads w1 = S (reads w) /\ reads w2 = S (reads w)
    /\ is_task_result response = true
    /\ is_task_result (JObj {[ "result" := JStr "Success" ]}) = false.
Proof.
  intros Hset Hmatch; cbv zeta.
  rewrite run_returns, (example_task_post_accepted config event w Hset Hmatch).
  do 3 eexists. split; [reflexivity|]. split; [reflexivity|].
  rewrite !new_events_app. by repeat split.
Qed.

Lemma run_and_endpoint_do_the_same_kind_of_work_witness :
  exists (response : JsValue) (w1 w2 : World),
    run JUndefined JUndefined w0 = (Normal (JObj {[ "result" := JStr "Success" ]}), w1)
    /\ example_task_post config_abc123 (request_with "abc123") w0 = (Normal response, w2)
    /\ is_task_result response = true.
Proof.
  destruct (run_and_endpoint_do_the_same_kind_of_work
              JUndefined JUndefined config_abc123 (request_with "abc123") w0)
    as (response & w1 & w2 & Hrun & Hpost & _ & _ & _ & _ & Hshape & _);
    [reflexivity..|].
  exists response, w1, w2. split; [exact Hrun|]. split; [exact Hpost|exact Hshape].
Defined.

(** ** The scheduled function *)

Section Trigger.

Variable fetch : Fetcher.
Variable env : ProcessEnv.
Variable req : Request.
Variable w : World.
Variable next_run : JsValue.
Hypothesis Hpayload : tick_next_run req = Normal next_run.

(** One tick of the function as committed: a line at the start, one
    call, and one line for how the call ended. *)
Lemma example_task_cases :
  example_task fetch env req w =
    (Normal tt,
     mkWorld (trace w ++
                [ConsoleLog [JStr "Scheduled function triggered. Next run:"; next_run];
                 Fetch (endpoint_url env) (fetch_options env);
                 match fetch (endpoint_url env) (fetch_options env) with
                 | Normal response => ConsoleLog [JStr "Task completed:"; response]
                 | Throw e => ConsoleError [JStr "Task failed:"; e]
                 end])
             (clock w) (reads w)).
Proof.
  unfold example_task, req_json, fetch_, try_catch, bind, ret, lift,
    console_log, console_error, emit.
  unfold tick_next_run in Hpayload.
  destruct (json_payload req) as [payload|e]; [|discriminate].
  rewrite Hpayload; cbn [trace clock reads].
  destruct (fetch (endpoint_url env) (fetch_options env));
    cbn [trace clock reads]; by rewrite <- !app_assoc.
Qed.

(** One tick of the revision that looks at [response.success]. *)
Lemma example_task_checked_cases :
  example_task_checked fetch env req w =
    (Normal tt,
     mkWorld (trace w ++
                [ConsoleLog [JStr "Scheduled function triggered. Next run:"; next_run];
                 Fetch (endpoint_url env) (fetch_options env);
                 match fetch (endpoint_url env) (fetch_options env) with
                 | Throw e =>
                     ConsoleError [JStr "Task failed:"; JObj {[ "cause" := e ]}]
                 | Normal response =>
                     match get_prop response "success" with
                     | Throw e =>
                         ConsoleError [JStr "Task failed:"; JObj {[ "cause" := e ]}]
                     | Normal success =>
                         if truthy success then
                           ConsoleLog [JStr "Task completed:"; response]
                         else
                           ConsoleError
                             [JStr "Task failed:";
                              JObj {[ "cause" := JError "Error" "Task failed" response ]}]
                     end
                 end])
             (clock w) (reads w)).
Proof.
  unfold example_task_checked, req_json, fetch_, try_catch, bind, ret, lift, throw,
    new_Error, console_log, console_error, emit.
  unfold tick_next_run in Hpayload.
  destruct (json_payload req) as [payload|e]; [|discriminate].
  rewrite Hpayload; cbn [trace clock reads].
  destruct (fetch (endpoint_url env) (fetch_options env)) as [response|e];
    cbn [trace clock reads]; [|by rewrite <- !app_assoc].
  destruct (get_prop response "success") as [success|e];
    cbn [trace clock reads]; [|by rewrite <- !app_assoc].
  destruct (truthy success); cbn [negb trace clock reads];
    by rewrite <- !app_assoc.
Qed.

End Trigger.

(** The revision treats a response whose [success] is false or absent as
    a failure: it logs an error carrying the response and does not log
    completion. *)
Lemma example_task_checked_inspects_success
    (fetch : Fetcher) (env : ProcessEnv) (req : Request) (w : World)
    (next_run response success : JsValue) :
  tick_next_run req = Normal next_run ->
  fetch (endpoint_url env) (fetch_options env) = Normal response ->
  get_prop response "success" = Normal success ->
  truthy success = false ->
  new_events w (example_task_checked fetch env req w).2 =
    [ConsoleLog [JStr "Scheduled function triggered. Next run:"; next_run];
     Fetch (endpoint_url env) (fetch_options env);
     ConsoleError [JStr "Task failed:";
                   JObj {[ "cause" := JError "Error" "Task failed" response ]}]].
Proof.
  intros Hpayload Hcall Hread Hfalsy.
  rewrite (example_task_checked_cases fetch env req w next_run Hpayload).
  cbn [snd]. by rewrite new_events_app, Hcall, Hread, Hfalsy.
Qed.

(** C5.  The function as committed in netlify/functions/example-task.mts
    does not look at [response.success]: answered with 200 and
    [{ success: false }], with 200 and an object without [success], or
    with 200 and a page of HTML, it logs "Task completed:" and no error.
    On the first of these answers the revision logs the failure. *)
Theorem example_task_ignores_success_flag :
  example_task (responds (JObj {[ "success" := JBool false ]})) process_env tick w0 =
    (Normal tt,
     mkWorld [ConsoleLog [JStr "Scheduled function triggered. Next run:";
                          JStr "2026-11-02T13:00:00.000Z"];
              Fetch "https://example.netlify.app/api/tasks/example-task"
                (JObj {[ "method" := JStr "POST";
                         "body" := JObj {[ "secret" := JStr "abc123" ]} ]});
              ConsoleLog [JStr "Task completed:"; JObj {[ "success" := JBool false ]}]]
             (clock w0) 0)
  /\ example_task (responds (JObj ∅)) process_env tick w0 =
    (Normal tt,
     mkWorld [ConsoleLog [JStr "Scheduled function triggered. Next run:";
                          JStr "2026-11-02T13:00:00.000Z"];
              Fetch "https://example.netlify.app/api/tasks/example-task"
                (JObj {[ "method" := JStr "POST";
                         "body" := JObj {[ "secret" := JStr "abc123" ]} ]});
              ConsoleLog [JStr "Task completed:"; JObj ∅]]
             (clock w0) 0)
  /\ new_events w0 (example_task (responds fallback_page) process_env tick w0).2 =
     [ConsoleLog [JStr "Scheduled function triggered. Next run:";
                  JStr "2026-11-02T13:00:00.000Z"];
      Fetch "https://example.netlify.app/api/tasks/example-task"
        (JObj {[ "method" := JStr "POST";
                 "body" := JObj {[ "secret" := JStr "abc123" ]} ]});
      ConsoleLog [JStr "Task completed:"; JStr "<!DOCTYPE html>"]]
  /\ new_events w0
       (example_task_checked (responds (JObj {[ "success" := JBool false ]}))
          process_env tick w0).2 =
     [ConsoleLog [JStr "Scheduled function triggered. Next run:";
                  JStr "2026-11-02T13:00:00.000Z"];
      Fetch "https://example.netlify.app/api/tasks/example-task"
        (JObj {[ "method" := JStr "POST";
                 "body" := JObj {[ "secret" := JStr "abc123" ]} ]});
      ConsoleError
        [JStr "Task failed:";
         JObj {[ "cause" :=
                   JError "Error" "Task failed" (JObj {[ "success" := JBool false ]}) ]}]].
Proof. repeat split; reflexivity. Qed.

(** C6.  However the call of the endpoint ends, the scheduled function
    completes normally, in both of its versions: it never throws once
    the tick's payload has been read.  A call that is rejected (an error
    status such as 401 or 500, or a transport failure) is logged with
    [console.error] together with the error; the revision also logs a
    response it counts as failed, with the response (or the error of
    reading it) as the cause. *)
Theorem trigger_completes_and_logs_failure
    (fetch : Fetcher) (env : ProcessEnv) (req : Request) (w : World)
    (next_run : JsValue) :
  tick_next_run req = Normal next_run ->
  let call := fetch (endpoint_url env) (fetch_options env) in
  let started :=
    [ConsoleLog [JStr "Scheduled function triggered. Next run:"; next_run];
     Fetch (endpoint_url env) (fetch_options env)] in
  (exists w',
     example_task fetch env req w = (Normal tt, w')
     /\ (forall response, call = Normal response ->
          new_events w w' =
            started ++ [ConsoleLog [JStr "Task completed:"; response]])
     /\ (forall e, call = Throw e ->
          new_events w w' =
            started ++ [ConsoleError [JStr "Task failed:"; e]]))
  /\ (exists w',
       example_task_checked fetch env req w = (Normal tt, w')
       /\ (forall response success, call = Normal response ->
            get_prop response "success" = Normal success ->
            truthy success = true ->
            new_events w w' =
              started ++ [ConsoleLog [JStr "Task completed:"; response]])
       /\ (forall response success, call = Normal response ->
            get_prop response "success" = Normal success ->
            truthy success = false ->
            new_events w w' =
              started ++
              [ConsoleError
                 [JStr "Task failed:";
                  JObj {[ "cause" := JError "Error" "Task failed" response ]}]])
       /\ (forall response e, call = Normal response ->
            get_prop response "success" = Throw e ->
            new_events w w' =
              started ++
              [ConsoleError [JStr "Task failed:"; JObj {[ "cause" := e ]}]])
       /\ (forall e, call = Throw e ->
            new_events w w' =
              started ++
              [ConsoleError [JStr "Task failed:"; JObj {[ "cause" := e ]}]])).
Proof.
  intros Hpayload; cbv zeta. split.
  - rewrite (example_task_cases fetch env req w next_run Hpayload).
    eexists; split; [reflexivity|]. rewrite new_events_app.
    split; intros ? ->; reflexivity.
  - rewrite (example_task_checked_cases fetch env req w next_run Hpayload).
    eexists; split; [reflexivity|]. rewrite new_events_app.
    repeat split.
    + by intros ? ? -> -> ->.
    + by intros ? ? -> -> ->.
    + by intros ? ? -> ->.
    + by intros ? ->.
Qed.

Lemma trigger_completes_and_logs_failure_witness :
  (exists w',
     example_task (rejects unauthorized) process_env tick w0 = (Normal tt, w')
     /\ new_events w0 w' =
          [ConsoleLog [JStr "Scheduled function triggered. Next run:";
                       JStr "2026-11-02T13:00:00.000Z"];
           Fetch (endpoint_url process_env) (fetch_options process_env);
           ConsoleError [JStr "Task failed:"; unauthorized]])
  /\ (exists w',
       example_task_checked (rejects connection_refused) process_env tick w0 =
         (Normal tt, w')
       /\ new_events w0 w' =
            [ConsoleLog [JStr "Scheduled function triggered. Next run:";
                         JStr "2026-11-02T13:00:00.000Z"];
             Fetch (endpoint_url process_env) (fetch_options process_env);
             ConsoleError [JStr "Task failed:";
                           JObj {[ "cause" := connection_refused ]}]]).
Proof.
  split.
  - destruct (trigger_completes_and_logs_failure
                (rejects unauthorized) process_env tick w0
                (JStr "2026-11-02T13:00:00.000Z"))
      as [(w' & Hrun & _ & Hfail) _]; [reflexivity|].
    exists w'. split; [exact Hrun|].
    exact (Hfail unauthorized eq_refl).
  - destruct (trigger_completes_and_logs_failure
                (rejects connection_refused) process_env tick w0
                (JStr "2026-11-02T13:00:00.000Z"))
      as [_ (w' & Hrun & _ & _ & _ & Hfail)]; [reflexivity|].
    exists w'. split; [exact Hrun|].
    exact (Hfail connection_refused eq_refl).
Defined.

(** ** More on the endpoint *)

(** A request that fails the check ends in an error and changes
    nothing. *)
Lemma example_task_post_rejected (config : RuntimeConfig) (event : H3Event) (w : World) :
  authorised config event = false ->
  exists e, example_task_post config event w = (Throw e, w).
Proof.
  unfold authorised, configured, secret_matches, request_secret.
  rewrite example_task_post_cases.
  destruct (body event) as [parsed|e]; [|eauto].
  destruct (truthy (taskSecret config)); cbn [negb andb]; [|eauto].
  destruct (get_prop parsed "secret") as [secret|e]; [|eauto].
  intros ->; cbn [negb]. eauto.
Qed.

(** X1.  With the secret configured, a request that has no body, or
    whose body is [null], is not answered with the 401 error: reading
    [body.secret] throws a [TypeError], before anything is logged or
    written. *)
Theorem endpoint_without_body_throws_type_error
    (config : RuntimeConfig) (event : H3Event) (w : World) :
  configured config = true ->
  body event = Normal JUndefined \/ body event = Normal JNull ->
  exists message,
    example_task_post config event w =
      (Throw (JError "TypeError" message JUndefined), w)
    /\ JError "TypeError" message JUndefined <> JH3Error 401 "Unauthorized".
Proof.
  unfold configured; intros Hset Hbody.
  rewrite example_task_post_cases.
  destruct Hbody as [-> | ->]; rewrite Hset; cbn [negb get_prop]; eexists; split;
    try reflexivity; discriminate.
Qed.

Lemma endpoint_without_body_throws_type_error_witness :
  exists message,
    example_task_post config_abc123 request_without_body w0 =
      (Throw (JError "TypeError" message JUndefined), w0)
    /\ JError "TypeError" message JUndefined <> JH3Error 401 "Unauthorized".
Proof.
  exact (endpoint_without_body_throws_type_error
           config_abc123 request_without_body w0 eq_refl (or_introl eq_refl)).
Defined.

(** X2.  With a non-empty string configured as the secret, the endpoint
    returns a response exactly for the requests whose body is an object
    with a [secret] member that is this very string: there is no
    coercion, a number or a missing member never passes. *)
Theorem endpoint_accepts_exactly_the_secret_string
    (config : RuntimeConfig) (event : H3Event) (w : World) (s : string) :
  taskSecret config = JStr s ->
  s <> "" ->
  (exists response w', example_task_post config event w = (Normal response, w'))
  <-> (exists props,
         body event = Normal (JObj props) /\ props !! "secret" = Some (JStr s)).
Proof.
  intros Hsecret Hnonempty.
  rewrite example_task_post_cases, Hsecret; cbn [truthy].
  apply String.eqb_neq in Hnonempty. rewrite Hnonempty; cbn [negb].
  split.
  - intros (response & w' & Hrun).
    destruct (body event) as [[| | | | | |props| |]|e];
      cbn [get_prop strict_eq negb] in Hrun; try discriminate.
    exists props. split; [reflexivity|].
    destruct (props !! "secret") as [[| | | |s'| | | |]|];
      cbv [default from_option id strict_eq negb] in Hrun; try discriminate.
    destruct (String.eqb_spec s' s) as [Heq|_]; [by rewrite Heq|discriminate].
  - intros (props & -> & Hlookup). cbn [get_prop]. rewrite Hlookup.
    cbv [default from_option id strict_eq]. rewrite String.eqb_refl; cbn [negb]. eauto.
Qed.

Lemma endpoint_accepts_exactly_the_secret_string_witness :
  (exists response w',
     example_task_post config_abc123 (request_with "abc123") w0 = (Normal response, w'))
  /\ ~ (exists response w',
          example_task_post config_abc123 (mkEvent (Normal (JObj {[ "secret" := JNum 123 ]}))) w0 =
            (Normal response, w')).
Proof.
  split.
  - apply (endpoint_accepts_exactly_the_secret_string
             config_abc123 (request_with "abc123") w0 "abc123" eq_refl);
      [discriminate|].
    eexists. split; reflexivity.
  - intros Haccepted.
    apply (endpoint_accepts_exactly_the_secret_string
             config_abc123 (mkEvent (Normal (JObj {[ "secret" := JNum 123 ]}))) w0 "abc123" eq_refl)
      in Haccepted; [|discriminate].
    destruct Haccepted as (props & Hbody & Hlookup).
    injection Hbody as <-. discriminate Hlookup.
Defined.

(** X3.  The endpoint looks at nothing in the body but its [secret]
    member: two object bodies that agree on it are served alike, result
    and effects, whatever else they carry. *)
Theorem endpoint_ignores_other_body_members
    (config : RuntimeConfig) (props1 props2 : gmap string JsValue) (w : World) :
  props1 !! "secret" = props2 !! "secret" ->
  example_task_post config (mkEvent (Normal (JObj props1))) w =
  example_task_post config (mkEvent (Normal (JObj props2))) w.
Proof.
  intros Hsame. rewrite !example_task_post_cases; cbn [body get_prop].
  by rewrite Hsame.
Qed.

Lemma endpoint_ignores_other_body_members_witness :
  example_task_post config_abc123 (request_with "abc123") w0 =
  example_task_post config_abc123
    (mkEvent (Normal (JObj {[ "secret" := JStr "abc123"; "force" := JBool true ]}))) w0.
Proof.
  exact (endpoint_ignores_other_body_members config_abc123
           {[ "secret" := JStr "abc123" ]}
           {[ "secret" := JStr "abc123"; "force" := JBool true ]} w0 eq_refl).
Defined.

(** ** A queue of requests *)

Lemma readings_S (w : World) (evs : list Event) (n : nat) :
  readings w (S n) =
    clock w (reads w) :: readings (mkWorld evs (clock w) (S (reads w))) n.
Proof.
  unfold readings; cbn [seq fmap list_fmap clock reads].
  rewrite Nat.add_0_r. f_equal.
  rewrite <- fmap_S_seq, <- list_fmap_compose.
  apply list_fmap_ext; intros _ i _; cbn. f_equal; lia.
Qed.

Lemma serve_cons (config : RuntimeConfig) (event : H3Event) (rest : list H3Event)
    (w : World) :
  serve config (event :: rest) w =
    ((example_task_post config event w).1 ::
       (serve config rest (example_task_post config event w).2).1,
     (serve config rest (example_task_post config event w).2).2).
Proof.
  cbn [serve]. destruct (example_task_post config event w) as [r w1]; cbn [fst snd].
  by destruct (serve config rest w1).
Qed.

(** The world a queue leaves behind: the work of one accepted request
    per authorised request, at successive readings of the clock. *)
Lemma serve_world (config : RuntimeConfig) (requests : list H3Event) (w : World) :
  (serve config requests w).2 =
    let n := length (filter (fun event => authorised config event = true) requests) in
    mkWorld (trace w ++ flat_map endpoint_work (readings w n))
            (clock w) (reads w + n).
Proof.
  revert w; induction requests as [|event rest IH]; intros w; cbv zeta.
  - cbn. rewrite app_nil_r, Nat.add_0_r. by destruct w.
  - rewrite serve_cons; cbn [snd].
    destruct (authorised config event) eqn:Hauth.
    + rewrite filter_cons_True by done. cbn [length].
      apply andb_prop in Hauth as [Hset Hmatch].
      rewrite (example_task_post_accepted config event w Hset Hmatch); cbn [snd].
      rewrite IH; cbv zeta; cbn [trace clock reads].
      rewrite (readings_S w
                 (trace w ++
                    [ConsoleLog [JStr "Running example record task: ";
                                 JNum (clock w (reads w))];
                     StorageSetItem "example:record"
                       (JStr (String_ (clock w (reads w))))
                       (JNum (clock w (reads w)))])).
      cbn [flat_map]. rewrite <- app_assoc. f_equal. lia.
    + rewrite filter_cons_False by (rewrite Hauth; discriminate).
      destruct (example_task_post_rejected config event w Hauth) as [e ->]; cbn [snd].
      apply IH.
Qed.

Lemma endpoint_work_writes (ts : list Z) :
  filter (fun ev => is_storage_write ev = true) (flat_map endpoint_work ts) =
    (fun t => StorageSetItem "example:record" (JStr (String_ t)) (JNum t)) <$> ts.
Proof.
  induction ts as [|t ts IH]; [reflexivity|].
  cbn [flat_map endpoint_work app fmap list_fmap].
  rewrite filter_cons_False by (cbn; discriminate).
  rewrite filter_cons_True by reflexivity.
  by rewrite IH.
Qed.

(** X4.  Serving a queue of requests does the task's work once per
    authorised request and never otherwise: the trace gains the work of
    one accepted request for each, in order and at successive clock
    readings; the number of key-value writes and of clock readings is
    the number of authorised requests in the queue. *)
Theorem serve_does_the_task_once_per_authorised_request
    (config : RuntimeConfig) (requests : list H3Event) (w : World) :
  let n := length (filter (fun event => authorised config event = true) requests) in
  let w' := (serve config requests w).2 in
  new_events w w' = flat_map endpoint_work (readings w n)
  /\ length (filter (fun ev => is_storage_write ev = true) (new_events w w')) = n
  /\ reads w' = reads w + n.
Proof.
  cbv zeta. rewrite serve_world; cbv zeta.
  rewrite new_events_app. split; [reflexivity|]. split; [|reflexivity].
  rewrite endpoint_work_writes, length_fmap.
  unfold readings. by rewrite length_fmap, length_seq.
Qed.

(** X5.  Every request of a queue is answered on its own merits: it gets
    a response exactly when it passes the secret check, whatever was
    served before it. *)
Theorem serve_answers_each_request_on_its_own
    (config : RuntimeConfig) (requests : list H3Event) (w : World) :
  Forall2 (fun event answer =>
             match answer with
             | Normal response =>
                 authorised config event = true /\ is_task_result response = true
             | Throw _ => authorised config event = false
             end)
          requests (serve config requests w).1.
Proof.
  revert w; induction requests as [|event rest IH]; intros w.
  - constructor.
  - rewrite serve_cons; cbn [fst]. constructor; [|apply IH].
    destruct (authorised config event) eqn:Hauth.
    + apply andb_prop in Hauth as [Hset Hmatch].
      by rewrite (example_task_post_accepted config event w Hset Hmatch).
    + by destruct (example_task_post_rejected config event w Hauth) as [e ->].
Qed.

(** X6.  Rejected requests leave no trace: a queue leaves the world as
    the queue of its authorised requests alone would. *)
Theorem serve_skips_rejected_requests
    (config : RuntimeConfig) (requests : list H3Event) (w : World) :
  (serve config requests w).2 =
  (serve config (filter (fun event => authorised config event = true) requests) w).2.
Proof.
  revert w; induction requests as [|event rest IH]; intros w; [reflexivity|].
  destruct (authorised config event) eqn:Hauth.
  - rewrite filter_cons_True by done. rewrite !serve_cons; cbn [snd]. apply IH.
  - rewrite filter_cons_False by (rewrite Hauth; discriminate).
    rewrite serve_cons; cbn [snd].
    destruct (example_task_post_rejected config event w Hauth) as [e ->]; cbn [snd].
    apply IH.
Qed.

Lemma written_endpoint_work (ts : list Z) :
  written (flat_map endpoint_work ts) =
    (fun t => (JStr (String_ t), JNum t)) <$> ts.
Proof.
  induction ts as [|t ts IH]; [reflexivity|].
  cbn [flat_map endpoint_work app written fmap list_fmap].
  f_equal. exact IH.
Qed.

(** X7.  The writes of a queue are keyed by the clock: each stores a
    reading under that reading's decimal string.  So two writes to the
    same key always carry the same value, and when the clock never
    repeats a reading no two requests write the same key. *)
Theorem serve_writes_are_keyed_by_the_clock
    (config : RuntimeConfig) (requests : list H3Event) (w : World) :
  let n := length (filter (fun event => authorised config event = true) requests) in
  let writes := written (new_events w (serve config requests w).2) in
  writes = (fun t => (JStr (String_ t), JNum t)) <$> readings w n
  /\ (forall key v1 v2, (key, v1) ∈ writes -> (key, v2) ∈ writes -> v1 = v2)
  /\ ((forall i j, clock w i = clock w j -> i = j) -> NoDup writes.*1).
Proof.
  cbv zeta. rewrite serve_world; cbv zeta.
  rewrite new_events_app, written_endpoint_work.
  split; [reflexivity|]. split.
  - intros key v1 v2.
    rewrite !list_elem_of_fmap.
    intros (t1 & [= -> ->] & _) (t2 & [= Hkey ->] & _).
    apply (inj pretty) in Hkey. by rewrite Hkey.
  - intros Hclock. rewrite <- list_fmap_compose.
    unfold readings. rewrite <- list_fmap_compose.
    apply NoDup_fmap_2_strong; [|apply NoDup_seq].
    intros i j _ _; cbn. intros [= Hkey].
    apply (inj pretty), Hclock in Hkey. lia.
Qed.

Lemma serve_writes_are_keyed_by_the_clock_witness :
  NoDup (written
           (new_events w0
              (serve config_abc123
                 [request_with "abc123"; request_with "wrong"; request_with "abc123"]
                 w0).2)).*1.
Proof.
  destruct (serve_writes_are_keyed_by_the_clock
              config_abc123
              [request_with "abc123"; request_with "wrong"; request_with "abc123"] w0)
    as (_ & _ & Hdistinct).
  apply Hdistinct. intros i j; cbn [w0 clock]. lia.
Defined.

(** ** The scheduled task, tick after tick *)

Lemma run_times_spec (payload context : JsValue) (n : nat) (w : World) :
  run_times payload context n w =
    (replicate n (Normal (JObj {[ "result" := JStr "Success" ]})),
     mkWorld (trace w ++ flat_map run_work (readings w n)) (clock w) (reads w + n)).
Proof.
  revert w; induction n as [|n IH]; intros w.
  - cbn. rewrite app_nil_r, Nat.add_0_r. by destruct w.
  - cbn [run_times]. rewrite run_returns, IH; cbn [trace clock reads replicate].
    rewrite (readings_S w
               (trace w ++
                  [ConsoleLog [JStr "Running example record task: ";
                               JNum (clock w (reads w))];
                   StorageSet "example:record"
                     (JNum (clock w (reads w))) (JNum (clock w (reads w)))])).
    cbn [flat_map]. rewrite <- app_assoc. do 2 f_equal. lia.
Qed.

Lemma written_run_work (ts : list Z) :
  written (flat_map run_work ts) = (fun t => (JNum t, JNum t)) <$> ts.
Proof.
  induction ts as [|t ts IH]; [reflexivity|].
  cbn [flat_map run_work app written fmap list_fmap].
  f_equal. exact IH.
Qed.

(** X8.  Firing the [example:record] task [n] times never fails: every
    firing returns [{ result: "Success" }].  Tick by tick it adds one
    log line and one [set] call at the next reading of the clock, each
    call storing the reading under the reading itself; and neither the
    results nor the effects depend on the payload or the context the
    task is given. *)
Theorem run_times_logs_and_stores_each_reading
    (payload context : JsValue) (n : nat) (w : World) :
  let firing := run_times payload context n w in
  firing.1 = replicate n (Normal (JObj {[ "result" := JStr "Success" ]}))
  /\ new_events w firing.2 = flat_map run_work (readings w n)
  /\ written (new_events w firing.2) = (fun t => (JNum t, JNum t)) <$> readings w n
  /\ length (written (new_events w firing.2)) = n
  /\ reads firing.2 = reads w + n
  /\ (forall payload' context', run_times payload' context' n w = firing).
Proof.
  cbv zeta. rewrite run_times_spec; cbn [fst snd].
  rewrite new_events_app, written_run_work.
  split; [reflexivity|]. split; [reflexivity|]. split; [reflexivity|]. split.
  - unfold readings. by rewrite !length_fmap, length_seq.
  - split; [reflexivity|]. intros payload' context'. apply run_times_spec.
Qed.

(** ** More on the scheduled function *)

Section Tick.

Variable fetch : Fetcher.
Variable env : ProcessEnv.
Variable req : Request.
Variable w : World.

(** A tick whose payload cannot be read or destructured ends there, in
    both versions: before the first log line and before the call. *)
Lemma example_task_bad_payload (e : JsValue) :
  tick_next_run req = Throw e ->
  example_task fetch env req w = (Throw e, w)
  /\ example_task_checked fetch env req w = (Throw e, w).
Proof.
  unfold tick_next_run; intros Hpayload.
  unfold example_task, example_task_checked, req_json, bind, ret, lift.
  destruct (json_payload req) as [payload|e']; [by rewrite Hpayload|].
  by injection Hpayload as ->.
Qed.

End Tick.

(** X9.  A tick whose payload is [null] or [undefined] makes the
    scheduled function throw a [TypeError], in both versions, before it
    logs anything and before it calls the endpoint. *)
Theorem trigger_without_payload_throws_before_the_call
    (fetch : Fetcher) (env : ProcessEnv) (req : Request) (w : World) :
  json_payload req = Normal JUndefined \/ json_payload req = Normal JNull ->
  exists message,
    example_task fetch env req w =
      (Throw (JError "TypeError" message JUndefined), w)
    /\ example_task_checked fetch env req w =
      (Throw (JError "TypeError" message JUndefined), w).
Proof.
  intros [Hpayload | Hpayload]; eexists;
    apply example_task_bad_payload; unfold tick_next_run; rewrite Hpayload;
    reflexivity.
Qed.

Lemma trigger_without_payload_throws_before_the_call_witness :
  exists message,
    example_task (responds (JObj ∅)) process_env (mkRequest (Normal JNull)) w0 =
      (Throw (JError "TypeError" message JUndefined), w0)
    /\ example_task_checked (responds (JObj ∅)) process_env (mkRequest (Normal JNull)) w0 =
      (Throw (JError "TypeError" message JUndefined), w0).
Proof.
  exact (trigger_without_payload_throws_before_the_call
           (responds (JObj ∅)) process_env (mkRequest (Normal JNull)) w0 (or_intror eq_refl)).
Defined.

(** X10.  Each tick calls the endpoint exactly once, in both versions
    and however the call ends: there is no retry.  The call is a POST
    to [process.env.URL] followed by [/api/tasks/example-task], with
    [process.env.NUXT_TASK_SECRET] as the [secret] of its body. *)
Theorem trigger_calls_the_endpoint_exactly_once
    (fetch : Fetcher) (env : ProcessEnv) (req : Request) (w : World)
    (next_run : JsValue) :
  tick_next_run req = Normal next_run ->
  let the_call :=
    Fetch (interpolate (URL env) +:+ "/api/tasks/example-task")
          (JObj {[ "method" := JStr "POST";
                   "body" := JObj {[ "secret" := env_value (NUXT_TASK_SECRET env) ]} ]}) in
  filter (fun ev => is_fetch ev = true)
         (new_events w (example_task fetch env req w).2) = [the_call]
  /\ filter (fun ev => is_fetch ev = true)
         (new_events w (example_task_checked fetch env req w).2) = [the_call].
Proof.
  intros Hpayload; cbv zeta.
  rewrite (example_task_cases fetch env req w next_run Hpayload).
  rewrite (example_task_checked_cases fetch env req w next_run Hpayload).
  cbn [snd]. rewrite !new_events_app.
  split.
  - rewrite filter_cons_False by (cbn; discriminate).
    rewrite filter_cons_True by reflexivity.
    rewrite filter_cons_False; [reflexivity|].
    destruct (fetch (endpoint_url env) (fetch_options env)); cbn; discriminate.
  - rewrite filter_cons_False by (cbn; discriminate).
    rewrite filter_cons_True by reflexivity.
    rewrite filter_cons_False; [reflexivity|].
    destruct (fetch (endpoint_url env) (fetch_options env)) as [response|e];
      [|cbn; discriminate].
    destruct (get_prop response "success") as [success|e]; [|cbn; discriminate].
    destruct (truthy success); cbn; discriminate.
Qed.

Lemma trigger_calls_the_endpoint_exactly_once_witness :
  filter (fun ev => is_fetch ev = true)
         (new_events w0 (example_task (rejects connection_refused)
                           (mkEnv None None) tick w0).2) =
    [Fetch "undefined/api/tasks/example-task"
           (JObj {[ "method" := JStr "POST";
                    "body" := JObj {[ "secret" := JUndefined ]} ]})].
Proof.
  exact (proj1 (trigger_calls_the_endpoint_exactly_once
                  (rejects connection_refused) (mkEnv None None) tick w0
                  (JStr "2026-11-02T13:00:00.000Z") eq_refl)).
Defined.

(** X12.  On a response whose [success] is truthy the two versions of
    the scheduled function do exactly the same: same log lines, same
    call, same normal end. *)
Theorem trigger_versions_agree_on_success
    (fetch : Fetcher) (env : ProcessEnv) (req : Request) (w : World)
    (response success : JsValue) :
  fetch (endpoint_url env) (fetch_options env) = Normal response ->
  get_prop response "success" = Normal success ->
  truthy success = true ->
  example_task fetch env req w = example_task_checked fetch env req w.
Proof.
  intros Hcall Hread Htruthy.
  destruct (tick_next_run req) as [next_run|e] eqn:Hpayload.
  - rewrite (example_task_cases fetch env req w next_run Hpayload).
    rewrite (example_task_checked_cases fetch env req w next_run Hpayload).
    by rewrite Hcall, Hread, Htruthy.
  - by destruct (example_task_bad_payload fetch env req w e Hpayload) as [-> ->].
Qed.

Lemma trigger_versions_agree_on_success_witness :
  example_task (responds (JObj {[ "success" := JBool true ]})) process_env tick w0 =
  example_task_checked (responds (JObj {[ "success" := JBool true ]})) process_env tick w0.
Proof.
  exact (trigger_versions_agree_on_success
           (responds (JObj {[ "success" := JBool true ]})) process_env tick w0
           (JObj {[ "success" := JBool true ]}) (JBool true)
           eq_refl eq_refl eq_refl).
Defined.

(** X13.  Whatever the endpoint returns passes the check of the
    revised scheduled function: a response of the endpoint carries
    [success: true], so a tick that receives it logs "Task completed:"
    and no failure. *)
Theorem endpoint_response_passes_the_trigger_check
    (config : RuntimeConfig) (event : H3Event) (we we' : World) (response : JsValue)
    (fetch : Fetcher) (env : ProcessEnv) (req : Request) (w : World)
    (next_run : JsValue) :
  example_task_post config event we = (Normal response, we') ->
  tick_next_run req = Normal next_run ->
  fetch (endpoint_url env) (fetch_options env) = Normal response ->
  get_prop response "success" = Normal (JBool true)
  /\ new_events w (example_task_checked fetch env req w).2 =
       [ConsoleLog [JStr "Scheduled function triggered. Next run:"; next_run];
        Fetch (endpoint_url env) (fetch_options env);
        ConsoleLog [JStr "Task completed:"; response]].
Proof.
  rewrite example_task_post_cases.
  destruct (body event) as [parsed|e]; [|discriminate].
  destruct (negb (truthy (taskSecret config))); [discriminate|].
  destruct (get_prop parsed "secret") as [secret|e]; [|discriminate].
  destruct (negb (strict_eq secret (taskSecret config))); [discriminate|].
  intros [= <- _] Hpayload Hcall.
  split; [reflexivity|].
  rewrite (example_task_checked_cases fetch env req w next_run Hpayload).
  cbn [snd]. rewrite new_events_app, Hcall.
  reflexivity.
Qed.

Lemma endpoint_response_passes_the_trigger_check_witness :
  let response := JObj {[ "success" := JBool true;
                          "timestamp" := JNum 1700000000000;
                          "message" := JStr "Task completed successfully" ]} in
  new_events w0 (example_task_checked (responds response) process_env tick w0).2 =
    [ConsoleLog [JStr "Scheduled function triggered. Next run:";
                 JStr "2026-11-02T13:00:00.000Z"];
     Fetch (endpoint_url process_env) (fetch_options process_env);
     ConsoleLog [JStr "Task completed:"; response]].
Proof.
  intros response.
  exact (proj2 (endpoint_response_passes_the_trigger_check
                  config_abc123 (request_with "abc123") w0
                  (example_task_post config_abc123 (request_with "abc123") w0).2
                  response (responds response) process_env tick w0
                  (JStr "2026-11-02T13:00:00.000Z") eq_refl eq_refl eq_refl)).
Defined.

(** X14.  The scheduled function never reads the clock and never
    touches the key-value store, in either version and however the
    tick goes; it only adds to the trace. *)
Theorem trigger_touches_neither_clock_nor_storage
    (fetch : Fetcher) (env : ProcessEnv) (req : Request) (w : World) :
  let quiet := fun w' : World =>
    reads w' = reads w
    /\ clock w' = clock w
    /\ (exists evs, trace w' = trace w ++ evs)
    /\ filter (fun ev => is_storage_write ev = true) (new_events w w') = [] in
  quiet (example_task fetch env req w).2
  /\ quiet (example_task_checked fetch env req w).2.
Proof.
  cbv zeta.
  destruct (tick_next_run req) as [next_run|e] eqn:Hpayload.
  - rewrite (example_task_cases fetch env req w next_run Hpayload).
    rewrite (example_task_checked_cases fetch env req w next_run Hpayload).
    cbn [snd reads clock trace]. rewrite !new_events_app.
    split; (split; [reflexivity|]; split; [reflexivity|]; split; [eauto|]).
    + destruct (fetch (endpoint_url env) (fetch_options env)); reflexivity.
    + destruct (fetch (endpoint_url env) (fetch_options env)) as [response|]; [|reflexivity].
      destruct (get_prop response "success") as [success|]; [|reflexivity].
      destruct (truthy success); reflexivity.
  - destruct (example_task_bad_payload fetch env req w e Hpayload) as [-> ->].
    cbn [snd]. rewrite new_events_same.
    split; (split; [reflexivity|]; split; [reflexivity|]; split; [|reflexivity]);
      exists []; by rewrite app_nil_r.
Qed.
